(** * Car rental listing intake bot: model and verification

    Shallow embedding of [car_rental_intake.py]: the price validator
    [clean_price], the [Listing] record, the eleven conversation handlers and
    the table that maps conversation states to them, followed by the theorems
    about the intake state machine.

    Modelling conventions.
    - Texts are [string]s of 7-bit characters; on such texts the character
      classes below are the ones Python's [str] methods and [re] use.
    - A Python [float] is an IEEE 754 binary64 value, [spec_float] with
      precision 53 and maximal exponent 1024.
    - A handler is a computation over the per-user storage [user_data], the
      list of Bot API calls that went through, and a count of the calls
      attempted; it ends with the next conversation state or with an exception.
      Whether the n-th Bot API call succeeds is read from [link]. *)

From Stdlib Require Import ZArith NArith Bool List Lia.
From Stdlib Require Import Strings.String Strings.Ascii Numbers.DecimalString.
From Stdlib Require Import Numbers.DecimalPos.
From Stdlib Require Import Floats.SpecFloat.
From stdpp Require Import base option gmap strings.

Import ListNotations.
Local Open Scope string_scope.
Local Open Scope Z_scope.

(* ================================================================== *)
(** ** Characters and strings as Python sees them *)
(* ================================================================== *)

Module Text.

(** Code point of a character. *)
Definition ord (c : ascii) : N := N_of_ascii c.

(** [\d] on 7-bit text: the ten decimal digits. *)
Definition isdigit (c : ascii) : bool :=
  ((48 <=? ord c) && (ord c <=? 57))%N.

(** [str.isspace] on 7-bit text: TAB..CR, FS..US and the blank. *)
Definition isspace (c : ascii) : bool :=
  (((9 <=? ord c) && (ord c <=? 13)) || ((28 <=? ord c) && (ord c <=? 32)))%N.

Definition isupper (c : ascii) : bool := ((65 <=? ord c) && (ord c <=? 90))%N.
Definition islower (c : ascii) : bool := ((97 <=? ord c) && (ord c <=? 122))%N.

(** A cased character is a letter. *)
Definition iscased (c : ascii) : bool := isupper c || islower c.

Definition lower (c : ascii) : ascii :=
  if isupper c then ascii_of_N (ord c + 32) else c.

Definition upper (c : ascii) : ascii :=
  if islower c then ascii_of_N (ord c - 32) else c.

(** [s.lstrip()], [s.rstrip()] and [s.strip()] with no argument. *)
Fixpoint lstrip (s : string) : string :=
  match s with
  | String c s' => if isspace c then lstrip s' else s
  | EmptyString => EmptyString
  end.

Fixpoint rstrip (s : string) : string :=
  match s with
  | EmptyString => EmptyString
  | String c s' =>
      match rstrip s' with
      | EmptyString => if isspace c then EmptyString else String c EmptyString
      | r => String c r
      end
  end.

Definition strip (s : string) : string := rstrip (lstrip s).

(** [s.title()]: a character that follows a cased character is lowercased,
    any other character is uppercased (title-cased). *)
Fixpoint title_from (previous_is_cased : bool) (s : string) : string :=
  match s with
  | EmptyString => EmptyString
  | String c s' =>
      String (if previous_is_cased then lower c else upper c)
             (title_from (iscased c) s')
  end.

Definition title (s : string) : string := title_from false s.


(** [re.sub(r"[^...]", "", s)] for a character class given as a predicate:
    every character outside the class is deleted. *)
Fixpoint re_sub_outside (class : ascii -> bool) (s : string) : string :=
  match s with
  | EmptyString => EmptyString
  | String c s' =>
      if class c then String c (re_sub_outside class s')
      else re_sub_outside class s'
  end.

(** [s.count(c)] for a one-character needle. *)
Fixpoint count (c : ascii) (s : string) : nat :=
  match s with
  | EmptyString => O
  | String d s' => (if Ascii.eqb d c then 1 else 0) + count c s'
  end.

(** Truth value of a string: non-empty. *)
Definition truthy (s : string) : bool :=
  match s with EmptyString => false | _ => true end.

End Text.

(* ================================================================== *)
(** ** Exceptions and results *)
(* ================================================================== *)

Inductive exn : Type :=
| ValueError      (* float() on a text that is not a number *)
| KeyError        (* user_data["listing"] with no such key *)
| AttributeError  (* update.message / update.callback_query is None *)
| NetworkError.   (* a Bot API call failed *)

Inductive result (A : Type) : Type :=
| Ok (a : A)
| Raise (e : exn).

Arguments Ok {A} a.
Arguments Raise {A} e.

(* ================================================================== *)
(** ** Python floats *)
(* ================================================================== *)

Module Float.

Definition prec : Z := 53.
Definition emax : Z := 1024.

Definition zero : spec_float := S754_zero false.

Fixpoint pow10 (k : nat) : positive :=
  match k with
  | O => 1
  | S k' => 10 * pow10 k'
  end.

(** The binary64 value nearest to [m / 10^k], ties to even; beyond the
    largest finite value the result is the infinity. *)
Definition of_decimal (m : N) (k : nat) : spec_float :=
  match m with
  | N0 => zero
  | Npos p =>
      SFdiv prec emax (S754_finite false p 0) (S754_finite false (pow10 k) 0)
  end.

(** Value of a run of decimal digits, most significant first; [None] when a
    character is not a digit. *)
Fixpoint int_of_digits (acc : N) (s : string) : option N :=
  match s with
  | EmptyString => Some acc
  | String c s' =>
      if Text.isdigit c
      then int_of_digits (10 * acc + (Text.ord c - 48))%N s'
      else None
  end.

(** Splits a text at its first decimal point. *)
Fixpoint partition_point (s : string) : string * option string :=
  match s with
  | EmptyString => (EmptyString, None)
  | String c s' =>
      if Ascii.eqb c "."
      then (EmptyString, Some s')
      else let (a, b) := partition_point s' in (String c a, b)
  end.

(** [float(s)] for a text [s] of decimal digits and points, the only texts
    [clean_price] passes to it. On these the grammar of a float is
    [digits], [digits.], [.digits] or [digits.digits]; anything else raises
    [ValueError]. *)
Definition float (s : string) : result spec_float :=
  let (int_part, rest) := partition_point s in
  let frac_part := match rest with Some f => f | None => EmptyString end in
  match int_part ++ frac_part with
  | EmptyString => Raise ValueError
  | ds =>
      match int_of_digits 0 ds with
      | Some m => Ok (of_decimal m (String.length frac_part))
      | None => Raise ValueError
      end
  end.

(** [x >= 0]. *)
Definition ge0 (x : spec_float) : bool := SFleb zero x.

(** Truth value of a float: anything but a zero. *)
Definition truthy (x : spec_float) : bool := negb (SFeqb x zero).

(** Decimal numeral of a natural number, as [str(n)] prints it. *)
Definition str_of_N (n : N) : string := NilZero.string_of_uint (N.to_uint n).

(** Decimal numeral of an integer, as [str(n)] prints it. *)
Definition str_of_Z (n : Z) : string := NilZero.string_of_int (Z.to_int n).

(** [m * 2^e * 100] rounded to the nearest integer, ties to even: the number
    of hundredths that the format [.2f] prints. *)
Definition hundredths (m : positive) (e : Z) : N :=
  match e with
  | Zneg d =>
      let den := Npos (Pos.pow 2 d) in
      let num := (Npos m * 100)%N in
      let q := (num / den)%N in
      let r := (num mod den)%N in
      match (2 * r ?= den)%N with
      | Lt => q
      | Gt => (q + 1)%N
      | Eq => if N.even q then q else (q + 1)%N
      end
  | _ => (Npos m * 100 * Z.to_N (2 ^ e))%N
  end.

(** The [,] option: a comma before every group of three digits. *)
Fixpoint group_thousands (digits : string) : string :=
  match digits with
  | EmptyString => EmptyString
  | String c rest =>
      let n := String.length rest in
      if ((0 <? n) && (n mod 3 =? 0))%nat
      then String c (String "," (group_thousands rest))
      else String c (group_thousands rest)
  end.

Definition two_digits (n : N) : string :=
  if (n <? 10)%N then "0" ++ str_of_N n else str_of_N n.

(** [format(x, ',.2f')]. *)
Definition format_2f (x : spec_float) : string :=
  match x with
  | S754_nan => "nan"
  | S754_infinity s => if s then "-inf" else "inf"
  | S754_zero s => if s then "-0.00" else "0.00"
  | S754_finite s m e =>
      let h := hundredths m e in
      (if s then "-" else "") ++
      group_thousands (str_of_N (h / 100)%N) ++ "." ++ two_digits (h mod 100)%N
  end.

End Float.

(* ================================================================== *)
(** ** Python integers from text *)
(* ================================================================== *)

Module Int.

(** The whitespace that [int] skips around a numeral of 7-bit characters:
    TAB..CR and the blank. *)
Definition isspace (c : ascii) : bool :=
  (((9 <=? Text.ord c) && (Text.ord c <=? 13)) || (Text.ord c =? 32))%N.

Fixpoint lstrip (s : string) : string :=
  match s with
  | String c s' => if isspace c then lstrip s' else s
  | EmptyString => EmptyString
  end.

Fixpoint rstrip (s : string) : string :=
  match s with
  | EmptyString => EmptyString
  | String c s' =>
      match rstrip s' with
      | EmptyString => if isspace c then EmptyString else String c EmptyString
      | r => String c r
      end
  end.

(** Value of a run of decimal digits in which single underscores may stand
    between two digits; [None] for anything else, the empty run included. *)
Fixpoint digits (after_digit : bool) (acc : N) (s : string) : option N :=
  match s with
  | EmptyString => if after_digit then Some acc else None
  | String c s' =>
      if Text.isdigit c then digits true (10 * acc + (Text.ord c - 48))%N s'
      else if Ascii.eqb c "_" then
        if after_digit then digits false acc s' else None
      else None
  end.

(** [int(s)] in base 10: whitespace around, an optional sign, then the
    digits. Numerals are taken within the length that the interpreter
    allows for the conversion (4300 digits by default). *)
Definition int (s : string) : result Z :=
  let body := rstrip (lstrip s) in
  let (negative, numeral) :=
    match body with
    | String "-" r => (true, r)
    | String "+" r => (false, r)
    | _ => (false, body)
    end in
  match digits false 0 numeral with
  | Some n => Ok (if negative then - Z.of_N n else Z.of_N n)
  | None => Raise ValueError
  end.

End Int.

(* ================================================================== *)
(** ** Data model *)
(* ================================================================== *)

Record Listing : Type := mkListing {
  name : string;
  category : string;
  price_per_day : spec_float;
  photo1_id : option string;
  photo2_id : option string;
}.

(** [Listing()]: every field at its default. *)
Definition new_listing : Listing :=
  {| name := ""; category := ""; price_per_day := Float.zero;
     photo1_id := None; photo2_id := None |}.

Definition CATEGORIES : list string := ["Exotic"; "Economic"; "Luxury"].

(** Conversation states; [END] is [ConversationHandler.END]. *)
Inductive State : Type :=
| NAME | CATEGORY | PRICE | PHOTO1 | PHOTO2 | REVIEW
| EDIT_NAME | EDIT_PRICE | EDIT_CAT | EDIT_P1 | EDIT_P2
| END.


(** *** What the transport delivers to a handler *)

Record PhotoSize : Type := { file_id : string }.

Record Message : Type := {
  text : option string;
  photo : list PhotoSize;        (* sizes in ascending order, empty if none *)
  leading_command : bool;        (* the text opens with a bot command *)
}.

Record CallbackQuery : Type := { data : option string }.

Record User : Type := { user_id : Z; username : option string }.

Record Update : Type := {
  message : option Message;
  callback_query : option CallbackQuery;
  effective_chat_id : Z;
  effective_user : User;
}.

(** *** What a handler asks of the transport *)

Inductive Markup : Type :=
| ReplyKeyboardMarkup (keyboard : list (list string))
                      (one_time_keyboard resize_keyboard : bool)
| ReplyKeyboardRemove
| InlineKeyboardMarkup (inline_keyboard : list (list (string * string))).

Inductive InputMedia : Type :=
| InputMediaPhoto (media : option string).

Inductive Call : Type :=
| answer
| edit_message_text (body : string)
| reply_text (body : string) (parse_mode : option string)
             (reply_markup : option Markup)
| send_message (chat_id : Z) (body : string) (parse_mode : option string)
               (reply_markup : option Markup)
| send_media_group (chat_id : Z) (media : list InputMedia).

Definition CAT_KB : Markup :=
  ReplyKeyboardMarkup [["Exotic"; "Economic"; "Luxury"]] true true.

(** *** The session a handler runs in *)

Record Session : Type := mkSession {
  user_data : gmap string Listing;   (* context.user_data *)
  sent : list Call;                  (* Bot API calls that went through *)
  attempts : nat;                    (* Bot API calls attempted so far *)
}.

(** A handler step: a result or an exception, and the session after it. *)
Definition M (A : Type) : Type := Session -> result A * Session.

Definition ret {A : Type} (a : A) : M A := fun w => (Ok a, w).

Definition bind {A B : Type} (m : M A) (k : A -> M B) : M B :=
  fun w =>
    match m w with
    | (Ok a, w') => k a w'
    | (Raise e, w') => (Raise e, w')
    end.

Definition raise {A : Type} (e : exn) : M A := fun w => (Raise e, w).

(** [try: body except Exception: handler]. *)
Definition try_except {A : Type} (body handler : M A) : M A :=
  fun w =>
    match body w with
    | (Ok a, w') => (Ok a, w')
    | (Raise _, w') => handler w'
    end.

Notation "'let*' x ':=' m 'in' k" := (bind m (fun x => k))
  (at level 10, x name, m at level 100, k at level 200).

(** [context.user_data[key]]. *)
Definition user_data_item (key : string) : M Listing :=
  fun w =>
    match user_data w !! key with
    | Some lst => (Ok lst, w)
    | None => (Raise KeyError, w)
    end.

(** [context.user_data.get(key)]. *)
Definition user_data_get (key : string) : M (option Listing) :=
  fun w => (Ok (user_data w !! key), w).

(** [context.user_data[key] = lst]; also the write-back of an attribute
    assignment to the listing object that the dictionary holds. *)
Definition user_data_store (key : string) (lst : Listing) : M unit :=
  fun w =>
    (Ok tt, {| user_data := <[key := lst]> (user_data w);
               sent := sent w; attempts := attempts w |}).

(** [context.user_data.clear()]. *)
Definition user_data_clear : M unit :=
  fun w => (Ok tt, {| user_data := ∅; sent := sent w; attempts := attempts w |}).

(** [update.message] and [update.callback_query], dereferenced. *)
Definition the_message (update : Update) : M Message :=
  match message update with
  | Some m => ret m
  | None => raise AttributeError
  end.

Definition the_callback_query (update : Update) : M CallbackQuery :=
  match callback_query update with
  | Some q => ret q
  | None => raise AttributeError
  end.

(** Truth value of an optional text: present and non-empty. *)
Definition truthy_opt (x : option string) : bool :=
  match x with Some s => Text.truthy s | None => false end.

(** [x or d] for an optional text. *)
Definition or_else (x : option string) (d : string) : string :=
  match x with Some s => if Text.truthy s then s else d | None => d end.

(** [photo[-1].file_id]; the callers have checked that [photo] is not empty. *)
Definition largest_file_id (photo : list PhotoSize) : option string :=
  match last photo with Some p => Some (file_id p) | None => None end.

(** [d == lit] for the callback data. *)
Definition data_is (d : option string) (lit : string) : bool :=
  match d with Some s => String.eqb s lit | None => false end.

Definition nl : string := String (ascii_of_nat 10) EmptyString.

(* ================================================================== *)
(** ** Helpers *)
(* ================================================================== *)

(** The character class [[\d.]]. *)
Definition digit_or_point (c : ascii) : bool :=
  Text.isdigit c || Ascii.eqb c ".".

(** [clean_price(text)]; [None] is Python's [None]. The exception that
    [float] may raise is caught inside. *)
Definition clean_price (text : string) : option spec_float :=
  let cleaned := Text.re_sub_outside digit_or_point (or_else (Some text) "") in
  if (1 <? Text.count "." cleaned)%nat || String.eqb cleaned ""
  then None
  else
    match Float.float cleaned with
    | Ok val => if Float.ge0 val then Some val else None
    | Raise _ => None
    end.

Definition format_preview (lst : Listing) : string :=
  let p1 := if truthy_opt (photo1_id lst) then "✅ set" else "❌ missing" in
  let p2 := if truthy_opt (photo2_id lst) then "✅ set" else "❌ missing" in
  "*Car Rental Listing*" ++ nl ++
  "*Name:* " ++ or_else (Some (name lst)) "—" ++ nl ++
  "*Category:* " ++ or_else (Some (category lst)) "—" ++ nl ++
  "*Price/Day:* " ++
    (if Float.truthy (price_per_day lst)
     then "$" ++ Float.format_2f (price_per_day lst) else "—") ++ nl ++
  "*Photo #1:* " ++ p1 ++ nl ++
  "*Photo #2:* " ++ p2 ++ nl ++ nl ++
  "Use the buttons below to edit or submit.".

Definition review_keyboard : Markup :=
  InlineKeyboardMarkup [
    [("✏️ Replace Name", "edit_name"); ("🗂 Change Category", "edit_cat")];
    [("💲 Change Price", "edit_price")];
    [("🖼 Replace Photo 1", "edit_p1"); ("🖼 Replace Photo 2", "edit_p2")];
    [("✅ Submit", "submit"); ("❌ Cancel", "cancel")]
  ].

(** Attribute assignments [lst.field = v]. *)
Definition set_name (v : string) (lst : Listing) : Listing :=
  {| name := v; category := category lst; price_per_day := price_per_day lst;
     photo1_id := photo1_id lst; photo2_id := photo2_id lst |}.

Definition set_category (v : string) (lst : Listing) : Listing :=
  {| name := name lst; category := v; price_per_day := price_per_day lst;
     photo1_id := photo1_id lst; photo2_id := photo2_id lst |}.

Definition set_price_per_day (v : spec_float) (lst : Listing) : Listing :=
  {| name := name lst; category := category lst; price_per_day := v;
     photo1_id := photo1_id lst; photo2_id := photo2_id lst |}.

Definition set_photo1_id (v : option string) (lst : Listing) : Listing :=
  {| name := name lst; category := category lst;
     price_per_day := price_per_day lst;
     photo1_id := v; photo2_id := photo2_id lst |}.

Definition set_photo2_id (v : option string) (lst : Listing) : Listing :=
  {| name := name lst; category := category lst;
     price_per_day := price_per_day lst;
     photo1_id := photo1_id lst; photo2_id := v |}.

(** [choice in CATEGORIES]. *)
Definition in_categories (choice : string) : bool :=
  existsb (String.eqb choice) CATEGORIES.

(** The test that guards submission:
    [lst.name and lst.category and lst.price_per_day and lst.photo1_id and
    lst.photo2_id]. *)
Definition all_fields_set (lst : Listing) : bool :=
  Text.truthy (name lst) && Text.truthy (category lst) &&
  Float.truthy (price_per_day lst) &&
  truthy_opt (photo1_id lst) && truthy_opt (photo2_id lst).

(* ================================================================== *)
(** ** Flow *)
(* ================================================================== *)

Section Bot.

(** The administrator's chat, read from the environment at start-up; 0 when
    it is not set. *)
Variable ADMIN_CHAT_ID : Z.

(** [link n] tells whether the n-th Bot API call of the session goes
    through; a call that does not raises [NetworkError]. *)
Variable link : nat -> bool.

Definition api (c : Call) : M unit :=
  fun w =>
    if link (attempts w)
    then (Ok tt, {| user_data := user_data w; sent := sent w ++ [c];
                    attempts := S (attempts w) |})
    else (Raise NetworkError,
          {| user_data := user_data w; sent := sent w;
             attempts := S (attempts w) |}).

Definition send_preview (chat_id : Z) (lst : Listing) : M unit :=
  api (send_message chat_id (format_preview lst) (Some "Markdown")
                    (Some review_keyboard)).

Definition cmd_start (update : Update) : M State :=
  let* _ := user_data_store "listing" new_listing in
  let* msg := the_message update in
  let* _ := api (reply_text
    ("Hi! Let’s add a car rental listing." ++ nl ++ nl ++
     "Send the *Vehicle Name* (e.g., 'BMW M4 Competition').")
    (Some "Markdown") (Some ReplyKeyboardRemove)) in
  ret NAME.

Definition handle_name (update : Update) : M State :=
  let* lst := user_data_item "listing" in
  let* msg := the_message update in
  let lst := set_name (Text.strip (or_else (text msg) "")) lst in
  let* _ := user_data_store "listing" lst in
  let* _ := api (reply_text "Choose a *Category*:" (Some "Markdown")
                            (Some CAT_KB)) in
  ret CATEGORY.

Definition handle_category (update : Update) : M State :=
  let* lst := user_data_item "listing" in
  let* msg := the_message update in
  let choice := Text.title (Text.strip (or_else (text msg) "")) in
  if negb (in_categories choice) then
    let* _ := api (reply_text "Please choose: Exotic, Economic, or Luxury."
                              None (Some CAT_KB)) in
    ret CATEGORY
  else
    let lst := set_category choice lst in
    let* _ := user_data_store "listing" lst in
    let* _ := api (reply_text "Enter the *Price per day* (e.g., 149.99):"
                              (Some "Markdown") (Some ReplyKeyboardRemove)) in
    ret PRICE.

Definition handle_price (update : Update) : M State :=
  let* lst := user_data_item "listing" in
  let* msg := the_message update in
  match clean_price (or_else (text msg) "") with
  | None =>
      let* _ := api (reply_text "Please send a valid number (e.g., 149.99)."
                                None None) in
      ret PRICE
  | Some price =>
      let lst := set_price_per_day price lst in
      let* _ := user_data_store "listing" lst in
      let* _ := api (reply_text "Send *Photo #1* as a Photo (not as a file)."
                                (Some "Markdown") None) in
      ret PHOTO1
  end.

Definition handle_photo1 (update : Update) : M State :=
  let* lst := user_data_item "listing" in
  let* msg := the_message update in
  match photo msg with
  | [] =>
      let* _ := api (reply_text "Please send a *photo* (not a document)."
                                (Some "Markdown") None) in
      ret PHOTO1
  | _ =>
      let lst := set_photo1_id (largest_file_id (photo msg)) lst in
      let* _ := user_data_store "listing" lst in
      let* _ := api (reply_text "Great! Now send *Photo #2*."
                                (Some "Markdown") None) in
      ret PHOTO2
  end.

Definition handle_photo2 (update : Update) : M State :=
  let* lst := user_data_item "listing" in
  let* msg := the_message update in
  match photo msg with
  | [] =>
      let* _ := api (reply_text "Please send a *photo* (not a document)."
                                (Some "Markdown") None) in
      ret PHOTO2
  | _ =>
      let lst := set_photo2_id (largest_file_id (photo msg)) lst in
      let* _ := user_data_store "listing" lst in
      let* _ := send_preview (effective_chat_id update) lst in
      ret REVIEW
  end.

(** *** Review actions (edit / submit / cancel) *)

Definition header (update : Update) : string :=
  "📩 *Submitted by:* @" ++
  or_else (username (effective_user update)) "unknown" ++
  " (id: " ++ Float.str_of_Z (user_id (effective_user update)) ++ ")".

Definition summary (lst : Listing) : string :=
  "*Name:* " ++ name lst ++ nl ++
  "*Category:* " ++ category lst ++ nl ++
  "*Price/Day:* $" ++ Float.format_2f (price_per_day lst).

(** The guarded delivery. [Some s] is a [return s] from inside the [try]
    statement, [None] falls through to the code after it. *)
Definition deliver_to_admin (update : Update) (lst : Listing)
  : M (option State) :=
  try_except
    (if ADMIN_CHAT_ID =? 0 then
       let* _ := api (reply_text
         "Admin chat not set yet. Send /id to the bot and put that number into ADMIN_CHAT_ID in your .env, then restart."
         None None) in
       ret (Some REVIEW)
     else
       let* _ := api (send_message ADMIN_CHAT_ID (header update)
                                   (Some "Markdown") None) in
       let* _ := api (send_message ADMIN_CHAT_ID (summary lst)
                                   (Some "Markdown") None) in
       let media := [InputMediaPhoto (photo1_id lst);
                     InputMediaPhoto (photo2_id lst)] in
       let* _ := api (send_media_group ADMIN_CHAT_ID media) in
       ret None)
    (let* _ := api (reply_text
       "Sorry, I couldn’t deliver this to the admin. Try again later."
       None None) in
     ret (Some END)).

Definition review_actions (update : Update) : M State :=
  let* q := the_callback_query update in
  let* _ := api answer in
  let data := data q in
  let* lst := user_data_get "listing" in
  match lst with
  | None =>
      let* _ := api (edit_message_text
                       "No active listing. Use /start to begin.") in
      ret END
  | Some lst =>
      if data_is data "edit_name" then
        let* _ := api (reply_text "Send the new *Vehicle Name*:"
                                  (Some "Markdown") None) in
        ret EDIT_NAME
      else if data_is data "edit_cat" then
        let* _ := api (reply_text "Choose the new *Category*:"
                                  (Some "Markdown") (Some CAT_KB)) in
        ret EDIT_CAT
      else if data_is data "edit_price" then
        let* _ := api (reply_text
                         "Send the new *Price per day* (e.g., 159.99):"
                         (Some "Markdown") None) in
        ret EDIT_PRICE
      else if data_is data "edit_p1" then
        let* _ := api (reply_text "Send the new *Photo #1*."
                                  (Some "Markdown") None) in
        ret EDIT_P1
      else if data_is data "edit_p2" then
        let* _ := api (reply_text "Send the new *Photo #2*."
                                  (Some "Markdown") None) in
        ret EDIT_P2
      else if data_is data "submit" then
        if negb (all_fields_set lst) then
          let* _ := api (reply_text
            "Listing is incomplete. Please fill all fields and set both photos."
            None None) in
          let* _ := send_preview (effective_chat_id update) lst in
          ret REVIEW
        else
          let* early := deliver_to_admin update lst in
          match early with
          | Some s => ret s
          | None =>
              let* _ := api (reply_text
                "✅ Submitted! Thanks—your listing was sent to the admin."
                None None) in
              let* _ := user_data_clear in
              ret END
          end
      else if data_is data "cancel" then
        let* _ := user_data_clear in
        let* _ := api (reply_text "❌ Cancelled. Use /start to begin again."
                                  None None) in
        ret END
      else ret REVIEW
  end.

(** *** Edit handlers (return to REVIEW) *)

Definition edit_name (update : Update) : M State :=
  let* lst := user_data_item "listing" in
  let* msg := the_message update in
  let lst := set_name (Text.strip (or_else (text msg) "")) lst in
  let* _ := user_data_store "listing" lst in
  let* _ := send_preview (effective_chat_id update) lst in
  ret REVIEW.

Definition edit_cat (update : Update) : M State :=
  let* lst := user_data_item "listing" in
  let* msg := the_message update in
  let choice := Text.title (Text.strip (or_else (text msg) "")) in
  if negb (in_categories choice) then
    let* _ := api (reply_text "Please choose: Exotic, Economic, or Luxury."
                              None (Some CAT_KB)) in
    ret EDIT_CAT
  else
    let lst := set_category choice lst in
    let* _ := user_data_store "listing" lst in
    let* _ := send_preview (effective_chat_id update) lst in
    ret REVIEW.

Definition edit_price (update : Update) : M State :=
  let* lst := user_data_item "listing" in
  let* msg := the_message update in
  match clean_price (or_else (text msg) "") with
  | None =>
      let* _ := api (reply_text "Please send a valid number (e.g., 149.99)."
                                None None) in
      ret EDIT_PRICE
  | Some price =>
      let lst := set_price_per_day price lst in
      let* _ := user_data_store "listing" lst in
      let* _ := send_preview (effective_chat_id update) lst in
      ret REVIEW
  end.

Definition edit_p1 (update : Update) : M State :=
  let* lst := user_data_item "listing" in
  let* msg := the_message update in
  match photo msg with
  | [] =>
      let* _ := api (reply_text "Please send a *photo*." (Some "Markdown")
                                None) in
      ret EDIT_P1
  | _ =>
      let lst := set_photo1_id (largest_file_id (photo msg)) lst in
      let* _ := user_data_store "listing" lst in
      let* _ := send_preview (effective_chat_id update) lst in
      ret REVIEW
  end.

Definition edit_p2 (update : Update) : M State :=
  let* lst := user_data_item "listing" in
  let* msg := the_message update in
  match photo msg with
  | [] =>
      let* _ := api (reply_text "Please send a *photo*." (Some "Markdown")
                                None) in
      ret EDIT_P2
  | _ =>
      let lst := set_photo2_id (largest_file_id (photo msg)) lst in
      let* _ := user_data_store "listing" lst in
      let* _ := send_preview (effective_chat_id update) lst in
      ret REVIEW
  end.

(** *** Utility commands *)

Definition cmd_cancel (update : Update) : M State :=
  let* _ := user_data_clear in
  let* msg := the_message update in
  let* _ := api (reply_text "❌ Cancelled. Use /start to begin again."
                            None (Some ReplyKeyboardRemove)) in
  ret END.

(** [cmd_id] and [cmd_help] are registered outside the conversation and
    return nothing. *)
Definition cmd_id (update : Update) : M unit :=
  let* msg := the_message update in
  api (reply_text
         ("Your chat ID is: `" ++
          Float.str_of_Z (effective_chat_id update) ++ "`")
         (Some "Markdown") None).

Definition cmd_help (update : Update) : M unit :=
  let* msg := the_message update in
  api (reply_text
         ("Commands:" ++ nl ++
          "/start – begin a new listing" ++ nl ++
          "/cancel – cancel the process" ++ nl ++
          "/id – show your chat id" ++ nl ++
          "/help – this message")
         None None).

(** *** The conversation table *)

(** The filters the state handlers are registered with. *)
Inductive Filter : Type :=
| TEXT_and_not_COMMAND    (* MessageHandler(filters.TEXT & ~filters.COMMAND) *)
| PHOTO                   (* MessageHandler(filters.PHOTO) *)
| AnyCallbackQuery.       (* CallbackQueryHandler *)

Definition accepts (f : Filter) (update : Update) : bool :=
  match f, message update, callback_query update with
  | TEXT_and_not_COMMAND, Some m, _ =>
      truthy_opt (text m) && negb (leading_command m)
  | PHOTO, Some m, _ => match photo m with [] => false | _ => true end
  | AnyCallbackQuery, _, Some _ => true
  | _, _, _ => false
  end.

(** The [states=] argument of the [ConversationHandler]. *)
Definition states (s : State) : option (Filter * (Update -> M State)) :=
  match s with
  | NAME => Some (TEXT_and_not_COMMAND, handle_name)
  | CATEGORY => Some (TEXT_and_not_COMMAND, handle_category)
  | PRICE => Some (TEXT_and_not_COMMAND, handle_price)
  | PHOTO1 => Some (PHOTO, handle_photo1)
  | PHOTO2 => Some (PHOTO, handle_photo2)
  | REVIEW => Some (AnyCallbackQuery, review_actions)
  | EDIT_NAME => Some (TEXT_and_not_COMMAND, edit_name)
  | EDIT_CAT => Some (TEXT_and_not_COMMAND, edit_cat)
  | EDIT_PRICE => Some (TEXT_and_not_COMMAND, edit_price)
  | EDIT_P1 => Some (PHOTO, edit_p1)
  | EDIT_P2 => Some (PHOTO, edit_p2)
  | END => None
  end.

(** One update handled in state [s] by the handler registered for [s]; an
    update that the handler's filter does not accept leaves the conversation
    where it is. *)
Definition step (s : State) (update : Update) : M State :=
  match states s with
  | Some (f, callback) => if accepts f update then callback update else ret s
  | None => ret s
  end.

(** A run of updates, up to the first exception. *)
Fixpoint steps (s : State) (updates : list Update) : M State :=
  match updates with
  | [] => ret s
  | u :: rest => let* s' := step s u in steps s' rest
  end.

End Bot.

(** *** Setup *)

(** [os.getenv(key, default)] for a variable whose value, if set, is
    [value]. *)
Definition getenv (value : option string) (default : string) : string :=
  match value with Some v => v | None => default end.

(** [ADMIN_CHAT_ID = int(os.getenv("ADMIN_CHAT_ID", "0") or "0")]: the
    administrator's chat as the module computes it when it is loaded, from
    the value of the environment variable. *)
Definition admin_chat_id_of_env (value : option string) : result Z :=
  Int.int (or_else (Some (getenv value "0")) "0").


(* ================================================================== *)
(** ** Vocabulary of the statements *)
(* ================================================================== *)

(** A float with a clear sign bit that is not a NaN: a zero, a finite value
    or the infinity. *)
Inductive unsigned_float : spec_float -> Prop :=
| unsigned_zero : unsigned_float (S754_zero false)
| unsigned_finite m e : unsigned_float (S754_finite false m e)
| unsigned_infinity : unsigned_float (S754_infinity false).

Fixpoint all_digits (s : string) : bool :=
  match s with
  | EmptyString => true
  | String c s' => Text.isdigit c && all_digits s'
  end.


(** The text that [clean_price] parses: [text] without the characters that
    are neither digits nor points. *)
Definition cleaned (text : string) : string :=
  Text.re_sub_outside digit_or_point text.


(** A listing with a field unset, in the words of the data model: an empty
    name, an empty category, a zero price or an absent photo. *)
Definition some_field_unset (lst : Listing) : Prop :=
  name lst = "" \/ category lst = "" \/
  (exists s, price_per_day lst = S754_zero s) \/
  photo1_id lst = None \/ photo2_id lst = None.

(** The messages of the review loop. *)
Definition no_active_listing : Call :=
  edit_message_text "No active listing. Use /start to begin.".

Definition incomplete_notice : Call :=
  reply_text
    "Listing is incomplete. Please fill all fields and set both photos."
    None None.

Definition admin_not_set_notice : Call :=
  reply_text
    "Admin chat not set yet. Send /id to the bot and put that number into ADMIN_CHAT_ID in your .env, then restart."
    None None.

Definition delivery_failed_notice : Call :=
  reply_text "Sorry, I couldn’t deliver this to the admin. Try again later."
             None None.

Definition submitted_notice : Call :=
  reply_text "✅ Submitted! Thanks—your listing was sent to the admin."
             None None.

Definition preview (chat_id : Z) (lst : Listing) : Call :=
  send_message chat_id (format_preview lst) (Some "Markdown")
               (Some review_keyboard).

(** The three parts of a submission, as sent to the administrator. *)
Definition header_send (admin : Z) (update : Update) : Call :=
  send_message admin (header update) (Some "Markdown") None.

Definition summary_send (admin : Z) (lst : Listing) : Call :=
  send_message admin (summary lst) (Some "Markdown") None.

Definition photos_send (admin : Z) (lst : Listing) : Call :=
  send_media_group admin [InputMediaPhoto (photo1_id lst);
                          InputMediaPhoto (photo2_id lst)].

(** The calls that send something to the chat [chat]. *)
Definition addressed_to (chat : Z) (c : Call) : bool :=
  match c with
  | send_message to _ _ _ | send_media_group to _ => to =? chat
  | _ => false
  end.

(** The prompts of the intake path and of the edit states. *)
Definition category_prompt : Call :=
  reply_text "Choose a *Category*:" (Some "Markdown") (Some CAT_KB).

Definition category_reprompt : Call :=
  reply_text "Please choose: Exotic, Economic, or Luxury." None (Some CAT_KB).

Definition price_prompt : Call :=
  reply_text "Enter the *Price per day* (e.g., 149.99):" (Some "Markdown")
             (Some ReplyKeyboardRemove).









(** A link on which every Bot API call goes through. *)
Definition always_up : nat -> bool := fun _ => true.

(** A link on which every Bot API call but the [n]-th goes through. *)
Definition down_at (n : nat) : nat -> bool := fun i => negb (Nat.eqb i n).

(** The session after one more successful Bot API call. *)
Definition after_calls (calls : list Call) (w : Session) : Session :=
  {| user_data := user_data w; sent := sent w ++ calls;
     attempts := length calls + attempts w |}.

(** The session with the stored listing replaced. *)
Definition with_listing (lst : Listing) (w : Session) : Session :=
  {| user_data := <["listing" := lst]> (user_data w); sent := sent w;
     attempts := attempts w |}.

(** The session with its storage emptied. *)
Definition cleared (w : Session) : Session :=
  {| user_data := ∅; sent := sent w; attempts := attempts w |}.

(** *** The intake path *)











(** The replies to the cancel button and to the cancel command. *)
Definition cancelled_notice : Call :=
  reply_text "❌ Cancelled. Use /start to begin again." None None.

Definition cancelled_command_notice : Call :=
  reply_text "❌ Cancelled. Use /start to begin again." None
             (Some ReplyKeyboardRemove).

(** The reply to the id command. *)
Definition chat_id_reply (chat_id : Z) : Call :=
  reply_text ("Your chat ID is: `" ++ Float.str_of_Z chat_id ++ "`")
             (Some "Markdown") None.


Definition message_state (s : State) : bool :=
  match s with
  | REVIEW | END => false
  | _ => true
  end.

(** The seven action ids of the review keyboard. *)
Definition action_ids : list string :=
  ["edit_name"; "edit_cat"; "edit_price"; "edit_p1"; "edit_p2";
   "submit"; "cancel"].





(** *** Invariants of the stored listing *)




(** A computation keeps the session property [J], and every value it
    returns satisfies [Q]. *)
Definition sound {A : Type} (J : Session -> Prop) (m : M A) (Q : A -> Prop)
  : Prop :=
  forall w, J w ->
    J (snd (m w)) /\ forall a, fst (m w) = Ok a -> Q a.

(** A submission is under way: the submit button is pressed on a stored
    listing that passes the guard, with the administrator's chat
    configured. *)
Definition submitting (admin : Z) (s : State) (update : Update) (w : Session)
  : Prop :=
  s = REVIEW /\ admin <> 0 /\
  (exists q, callback_query update = Some q /\ data q = Some "submit") /\
  (exists lst, user_data w !! "listing" = Some lst /\
               all_fields_set lst = true).


(** *** Sample inputs *)

Definition renter : User := {| user_id := 4242; username := Some "renter" |}.

Definition text_message (t : string) : Update :=
  {| message := Some {| text := Some t; photo := []; leading_command := false |};
     callback_query := None; effective_chat_id := 4242;
     effective_user := renter |}.

Definition photo_message (ids : list string) : Update :=
  {| message := Some {| text := None; photo := map Build_PhotoSize ids;
                        leading_command := false |};
     callback_query := None; effective_chat_id := 4242;
     effective_user := renter |}.

Definition button (action : string) : Update :=
  {| message := None; callback_query := Some {| data := Some action |};
     effective_chat_id := 4242; effective_user := renter |}.

Definition command (c : string) : Update :=
  {| message := Some {| text := Some c; photo := []; leading_command := true |};
     callback_query := None; effective_chat_id := 4242;
     effective_user := renter |}.

(** The float 149.99: the binary64 value nearest to 14999/100, which is
    5277303969603912 * 2^-45. *)
Definition price_149_99 : spec_float := S754_finite false 5277303969603912 (-45).

(** The float 5.0, which is 5629499534213120 * 2^-50. *)
Definition price_5 : spec_float := S754_finite false 5629499534213120 (-50).

Definition bmw : Listing :=
  {| name := "BMW M4"; category := "Exotic"; price_per_day := price_149_99;
     photo1_id := Some "P1"; photo2_id := Some "P2" |}.

Definition fresh_session : Session :=
  {| user_data := ∅; sent := []; attempts := 0 |}.

Definition session_of (lst : Listing) : Session :=
  {| user_data := {["listing" := lst]}; sent := []; attempts := 0 |}.

(* ================================================================== *)
(** ** The price validator *)
(* ================================================================== *)

Module FloatFacts.
Import Float.

(** Shifting a mantissa to the right keeps it non-negative. *)
Lemma shr_1_nonneg mrs : 0 <= shr_m mrs -> 0 <= shr_m (shr_1 mrs).
Proof.
  destruct mrs as [m r s]; simpl.
  destruct m as [|[p|p|]|[p|p|]]; simpl; lia.
Qed.

Lemma iter_pos_shr_1_nonneg n mrs :
  0 <= shr_m mrs -> 0 <= shr_m (SpecFloat.iter_pos shr_1 n mrs).
Proof.
  revert mrs; induction n as [n IH|n IH|]; intros mrs H; simpl.
  - apply IH, IH, shr_1_nonneg, H.
  - apply IH, IH, H.
  - apply shr_1_nonneg, H.
Qed.

Lemma shr_record_of_loc_m m l : shr_m (shr_record_of_loc m l) = m.
Proof. destruct l as [|[]]; reflexivity. Qed.

Lemma shr_fexp_nonneg m e l :
  0 <= m -> 0 <= shr_m (fst (shr_fexp prec emax m e l)).
Proof.
  intros H. unfold shr_fexp, shr.
  destruct (fexp prec emax (Zdigits2 m + e) - e) as [|n|n]; simpl;
    rewrite ?shr_record_of_loc_m; auto.
  apply iter_pos_shr_1_nonneg. rewrite shr_record_of_loc_m. exact H.
Qed.

Lemma round_nearest_even_nonneg m l : 0 <= m -> 0 <= round_nearest_even m l.
Proof.
  intros H. unfold round_nearest_even.
  destruct l as [|[]]; try lia. destruct (Z.even m); lia.
Qed.

Lemma binary_round_aux_unsigned m e l :
  0 <= m -> unsigned_float (binary_round_aux prec emax false m e l).
Proof.
  intros H. unfold binary_round_aux.
  pose proof (shr_fexp_nonneg m e l H) as H1.
  destruct (shr_fexp prec emax m e l) as [mrs' e'] eqn:E1. simpl in H1.
  pose proof (shr_fexp_nonneg _ e' loc_Exact
                (round_nearest_even_nonneg _ (loc_of_shr_record mrs') H1)) as H2.
  destruct (shr_fexp prec emax _ e' loc_Exact) as [mrs'' e''] eqn:E2.
  simpl in H2.
  destruct (shr_m mrs'') as [|p|p].
  - constructor.
  - destruct (e'' <=? emax - prec); constructor.
  - lia.
Qed.

Lemma of_decimal_unsigned m k : unsigned_float (of_decimal m k).
Proof.
  unfold of_decimal. destruct m as [|p]; [constructor|].
  unfold SFdiv, SFdiv_core_binary.
  set (e' := Z.min _ _). set (m' := match _ with Z0 => _ | _ => _ end).
  assert (Hm : 0 <= m').
  { subst m'. destruct (0 - 0 - e') as [|s|s]; try lia.
    rewrite Z.shiftl_mul_pow2 by lia. apply Z.mul_nonneg_nonneg; lia. }
  pose proof (Z.div_pos m' (Z.pos (pow10 k)) Hm ltac:(lia)) as Hq.
  unfold Z.div in Hq.
  destruct (Z.div_eucl m' (Z.pos (pow10 k))) as [q r]. simpl in Hq.
  apply binary_round_aux_unsigned. exact Hq.
Qed.

(** The sample prices are the floats of their decimal numerals. *)
Lemma sample_prices :
  price_149_99 = of_decimal 14999 2 /\ price_5 = of_decimal 5 0 /\
  format_2f price_149_99 = "149.99" /\ format_2f price_5 = "5.00".
Proof. repeat split. Qed.

Lemma unsigned_ge0 x : unsigned_float x -> ge0 x = true.
Proof. intros []; reflexivity. Qed.


End FloatFacts.

Module PriceFacts.
Import Text Float.

#[local] Arguments String.append !s1 s2 / : simpl nomatch.



Lemma point_is_no_digit c : Ascii.eqb c "." = true -> isdigit c = false.
Proof. intros H. apply Ascii.eqb_eq in H. subst c. reflexivity. Qed.






Lemma or_else_text text : or_else (Some text) "" = text.
Proof. destruct text; reflexivity. Qed.

(** [clean_price] in terms of the cleaned text. *)
Lemma clean_price_unfold text :
  clean_price text =
    if (1 <? count "." (cleaned text))%nat || String.eqb (cleaned text) ""
    then None
    else match float (cleaned text) with
         | Ok val => if ge0 val then Some val else None
         | Raise _ => None
         end.
Proof. unfold clean_price, cleaned. rewrite or_else_text. reflexivity. Qed.

(** A result of [clean_price] is what [float] makes of the cleaned text, and
    it has a clear sign bit. *)
Lemma clean_price_some text v :
  clean_price text = Some v ->
  float (cleaned text) = Ok v /\ unsigned_float v.
Proof.
  rewrite clean_price_unfold.
  destruct (_ || _); [discriminate|].
  destruct (float (cleaned text)) as [val|e] eqn:E; [|discriminate].
  destruct (ge0 val); [|discriminate]. intros [= <-]. split; [reflexivity|].
  revert E. unfold float. destruct (partition_point _) as [ip rest].
  destruct (ip ++ _)%string; [discriminate|].
  destruct (int_of_digits 0 _); [|discriminate].
  intros [= <-]. apply FloatFacts.of_decimal_unsigned.
Qed.


End PriceFacts.



(** C10. [clean_price] is a total function that raises nothing: on every
    text it returns [None] or a number [v] with [v >= 0], whose sign bit is
    clear. The [ValueError] of [float], as on the lone point ".", is caught
    and turned into [None]. *)
Theorem clean_price_total_nonneg :
  (forall text,
     clean_price text = None \/
     exists v, clean_price text = Some v /\ Float.ge0 v = true /\
               unsigned_float v) /\
  Float.float (cleaned ".") = Raise ValueError /\
  clean_price "." = None.
Proof.
  split; [|split; reflexivity].
  intros text. destruct (clean_price text) as [v|] eqn:E; [right|left; auto].
  exists v. destruct (PriceFacts.clean_price_some _ _ E) as [_ Hu].
  repeat split; [|exact Hu]. apply FloatFacts.unsigned_ge0, Hu.
Qed.

(* ================================================================== *)
(** ** The handlers *)
(* ================================================================== *)

(** Runs the monadic plumbing of a handler; what is left are the tests on
    the inputs, the lookups in [user_data] and the states of the link. *)
Ltac plumbing :=
  cbv beta iota zeta delta
    [bind ret raise try_except api send_preview
     user_data_item user_data_get user_data_store user_data_clear
     the_message the_callback_query deliver_to_admin
     after_calls with_listing cleared
     no_active_listing incomplete_notice admin_not_set_notice
     delivery_failed_notice submitted_notice preview
     header_send summary_send photos_send
     category_prompt category_reprompt price_prompt
     user_data sent attempts message callback_query data text photo
     length Nat.add negb fst snd].

(** Decides the comparisons of a known action id with the literals. *)
Ltac decide_action :=
  repeat match goal with
  | |- context [data_is (Some ?a) ?b] =>
      let v := eval vm_compute in (data_is (Some a) b) in
      change (data_is (Some a) b) with v
  end.

Ltac run_handler Hlink :=
  repeat (plumbing; decide_action; rewrite ?Hlink).

(** C9. A review action that arrives when the session owns no listing,
    whatever its action id, changes nothing in the storage, answers with the
    "no active listing" text and ends the conversation with a normal
    return. *)
Theorem review_action_without_listing
    (admin : Z) (link : nat -> bool) (update : Update) (q : CallbackQuery)
    (w : Session) :
  callback_query update = Some q ->
  user_data w !! "listing" = None ->
  (forall n, link n = true) ->
  review_actions admin link update w =
    (Ok END,
     after_calls [answer; no_active_listing] w).
Proof.
  intros Hq Hl Hlink. destruct w as [ud snt att], update as [msg cq chat usr].
  simpl in Hq, Hl. subst cq. unfold review_actions.
  run_handler Hlink. rewrite Hl. run_handler Hlink.
  rewrite <- app_assoc. reflexivity.
Qed.

(** [review_action_without_listing] at the submit button of a session that
    was never started. *)
Lemma review_action_without_listing_witness :
  review_actions 777 always_up (button "submit") fresh_session =
    (Ok END, after_calls [answer; no_active_listing] fresh_session).
Proof.
  apply (review_action_without_listing 777 always_up (button "submit")
           {| data := Some "submit" |} fresh_session);
    reflexivity.
Defined.

(** A listing with a field unset fails the test that guards submission. *)
Lemma unset_fails_guard lst : some_field_unset lst -> all_fields_set lst = false.
Proof.
  unfold all_fields_set. destruct lst as [n c p p1 p2].
  unfold some_field_unset; simpl.
  intros [-> | [-> | [[s ->] | [-> | ->]]]]; simpl;
    rewrite ?andb_false_r; reflexivity.
Qed.

(** The test that guards submission holds exactly for the listings whose
    name and category are not empty, whose price is not a zero and whose two
    photo references are present and not empty. *)
Lemma all_fields_set_iff lst :
  all_fields_set lst = true <->
  name lst <> "" /\ category lst <> "" /\
  (forall s, price_per_day lst <> S754_zero s) /\
  (exists p, photo1_id lst = Some p /\ p <> "") /\
  (exists p, photo2_id lst = Some p /\ p <> "").
Proof.
  unfold all_fields_set. destruct lst as [n c p p1 p2]; simpl.
  rewrite !andb_true_iff. split.
  - intros ((((Hn & Hc) & Hp) & H1) & H2).
    split; [|split; [|split; [|split]]].
    + intros ->. discriminate.
    + intros ->. discriminate.
    + intros s ->. destruct s; discriminate.
    + destruct p1 as [[|a r]|]; try discriminate.
      eexists; split; [reflexivity|discriminate].
    + destruct p2 as [[|a r]|]; try discriminate.
      eexists; split; [reflexivity|discriminate].
  - intros (Hn & Hc & Hp & (q1 & -> & Hq1) & (q2 & -> & Hq2)).
    split; [split; [split; [split|]|]|].
    + destruct n; [contradiction|reflexivity].
    + destruct c; [contradiction|reflexivity].
    + destruct p as [s|s| |s m e]; try reflexivity;
        try (destruct s; reflexivity).
      destruct (Hp s eq_refl).
    + destruct q1; [contradiction|reflexivity].
    + destruct q2; [contradiction|reflexivity].
Qed.

(** C4. Submit on a listing with a field unset: whatever the link does,
    the storage is left as it was and the only calls made are the
    acknowledgement, the corrective notice and the preview for the
    requesting chat, none of them part of a submission and none addressed
    to the administrator unless the request came from that very chat; when
    the calls go through, all three are made, in this order, and the
    conversation stays in [REVIEW]. *)
Theorem submit_incomplete_listing
    (admin : Z) (link : nat -> bool) (update : Update) (q : CallbackQuery)
    (w : Session) (lst : Listing) :
  callback_query update = Some q ->
  data q = Some "submit" ->
  user_data w !! "listing" = Some lst ->
  some_field_unset lst ->
  let calls := [answer; incomplete_notice;
                preview (effective_chat_id update) lst] in
  (user_data (snd (review_actions admin link update w)) = user_data w /\
   exists n, sent (snd (review_actions admin link update w)) =
             (sent w ++ firstn n calls)%list) /\
  (effective_chat_id update <> admin ->
   List.filter (addressed_to admin) calls = []) /\
  ((forall n, link n = true) ->
   review_actions admin link update w = (Ok REVIEW, after_calls calls w)).
Proof.
  intros Hq Hd Hl Hu calls. apply unset_fails_guard in Hu.
  destruct w as [ud snt att], update as [msg cq chat usr], q as [d].
  simpl in Hq, Hd, Hl. subst cq d. unfold review_actions.
  split; [|split].
  2:{ simpl. intros Hne. apply Z.eqb_neq in Hne. now rewrite Hne. }
  - plumbing. destruct (link att) eqn:L0; plumbing.
    2:{ split; [reflexivity|]. exists 0%nat. simpl. now rewrite app_nil_r. }
    rewrite Hl. plumbing. decide_action. plumbing. rewrite Hu. plumbing.
    destruct (link (S att)) eqn:L1; plumbing.
    2:{ split; [reflexivity|]. exists 1%nat. reflexivity. }
    destruct (link (S (S att))) eqn:L2; plumbing.
    2:{ split; [reflexivity|]. exists 2%nat. simpl.
        now rewrite <- app_assoc. }
    split; [reflexivity|]. exists 3%nat. simpl.
    now rewrite <- !app_assoc.
  - intros Hlink. run_handler Hlink. rewrite Hl. run_handler Hlink.
    rewrite Hu. run_handler Hlink. rewrite <- !app_assoc. reflexivity.
Qed.

(** [submit_incomplete_listing] at a listing that has everything but its
    second photo. *)
Lemma submit_incomplete_listing_witness :
  let lst := set_photo2_id None bmw in
  photo2_id lst = None /\
  review_actions 777 always_up (button "submit") (session_of lst) =
    (Ok REVIEW,
     after_calls [answer; incomplete_notice; preview 4242 lst]
                 (session_of lst)).
Proof.
  intros lst. split; [reflexivity|].
  apply (submit_incomplete_listing 777 always_up (button "submit")
           {| data := Some "submit" |} (session_of lst) lst);
    try reflexivity.
  right; right; right; right. reflexivity.
Defined.

(** C8. With the administrator's chat not configured (0), submit on a
    complete listing sends nothing to the administrator: the only calls are
    the acknowledgement and the instruction for configuring the chat, the
    storage is left as it was, and the conversation stays in [REVIEW]. *)
Theorem submit_without_admin_chat
    (link : nat -> bool) (update : Update) (q : CallbackQuery)
    (w : Session) (lst : Listing) :
  callback_query update = Some q ->
  data q = Some "submit" ->
  user_data w !! "listing" = Some lst ->
  all_fields_set lst = true ->
  (forall n, link n = true) ->
  review_actions 0 link update w =
    (Ok REVIEW, after_calls [answer; admin_not_set_notice] w).
Proof.
  intros Hq Hd Hl Hc Hlink.
  destruct w as [ud snt att], update as [msg cq chat usr], q as [d].
  simpl in Hq, Hd, Hl. subst cq d. unfold review_actions.
  run_handler Hlink. rewrite Hl. run_handler Hlink.
  rewrite Hc. run_handler Hlink. change (0 =? 0) with true.
  run_handler Hlink. rewrite <- !app_assoc. reflexivity.
Qed.

(** [submit_without_admin_chat] at the sample listing. *)
Lemma submit_without_admin_chat_witness :
  review_actions 0 always_up (button "submit") (session_of bmw) =
    (Ok REVIEW, after_calls [answer; admin_not_set_notice] (session_of bmw)).
Proof.
  apply (submit_without_admin_chat always_up (button "submit")
           {| data := Some "submit" |} (session_of bmw) bmw);
    reflexivity.
Defined.



(** The preview and the summary of the sample listing, as rendered. *)
Example rendering_of_sample :
  format_preview bmw =
    "*Car Rental Listing*" ++ nl ++
    "*Name:* BMW M4" ++ nl ++
    "*Category:* Exotic" ++ nl ++
    "*Price/Day:* $149.99" ++ nl ++
    "*Photo #1:* ✅ set" ++ nl ++
    "*Photo #2:* ✅ set" ++ nl ++ nl ++
    "Use the buttons below to edit or submit." /\
  format_preview new_listing =
    "*Car Rental Listing*" ++ nl ++
    "*Name:* —" ++ nl ++
    "*Category:* —" ++ nl ++
    "*Price/Day:* —" ++ nl ++
    "*Photo #1:* ❌ missing" ++ nl ++
    "*Photo #2:* ❌ missing" ++ nl ++ nl ++
    "Use the buttons below to edit or submit." /\
  summary bmw =
    "*Name:* BMW M4" ++ nl ++ "*Category:* Exotic" ++ nl ++
    "*Price/Day:* $149.99" /\
  header (button "submit") = "📩 *Submitted by:* @renter (id: 4242)" /\
  Float.format_2f (Float.of_decimal 123456789 3) = "123,456.79".
Proof. repeat split. Qed.

(** The round trip of the specification, from the begin command to the
    submit button: the conversation ends, the storage is empty, and the
    administrator has received the header, the summary and the two photos,
    once each and in this order. *)
Example full_round_trip :
  let updates := [text_message "BMW M4"; text_message "Exotic";
                  text_message "149.99"; photo_message ["P1"];
                  photo_message ["P2"]; button "submit"] in
  let run := let* s := cmd_start always_up (command "/start") in
             steps 777 always_up s updates in
  fst (run fresh_session) = Ok END /\
  user_data (snd (run fresh_session)) = ∅ /\
  List.filter (addressed_to 777) (sent (snd (run fresh_session))) =
    [header_send 777 (button "submit"); summary_send 777 bmw;
     photos_send 777 bmw].
Proof. vm_compute. repeat split. Qed.

(** C2, on the code. The header send to the administrator fails: the user
    gets the apology, the conversation ends and nothing more is sent, but
    the listing is still in the storage, every field as it was. The same
    happens when the summary send or the photo send is the one that
    fails. *)
Theorem delivery_failure_keeps_listing :
  review_actions 777 (down_at 1) (button "submit") (session_of bmw) =
    (Ok END,
     {| user_data := {["listing" := bmw]};
        sent := [answer; delivery_failed_notice];
        attempts := 3 |}) /\
  review_actions 777 (down_at 2) (button "submit") (session_of bmw) =
    (Ok END,
     {| user_data := {["listing" := bmw]};
        sent := [answer; header_send 777 (button "submit");
                 delivery_failed_notice];
        attempts := 4 |}) /\
  review_actions 777 (down_at 3) (button "submit") (session_of bmw) =
    (Ok END,
     {| user_data := {["listing" := bmw]};
        sent := [answer; header_send 777 (button "submit");
                 summary_send 777 bmw; delivery_failed_notice];
        attempts := 5 |}) /\
  ({["listing" := bmw]} : gmap string Listing) !! "listing" = Some bmw.
Proof. repeat split. Qed.

(** Submit with the administrator's chat configured and one of the three
    sends failing, in general: the storage still holds the listing when the
    handler is done. *)
Lemma delivery_failure_storage
    (admin : Z) (link : nat -> bool) (update : Update) (q : CallbackQuery)
    (w : Session) (lst : Listing) :
  callback_query update = Some q ->
  data q = Some "submit" ->
  user_data w !! "listing" = Some lst ->
  all_fields_set lst = true ->
  admin <> 0 ->
  link (attempts w) = true ->
  link (1 + attempts w)%nat && link (2 + attempts w)%nat &&
    link (3 + attempts w)%nat = false ->
  user_data (snd (review_actions admin link update w)) = user_data w.
Proof.
  intros Hq Hd Hl Hc Ha L0 Lf. apply Z.eqb_neq in Ha.
  destruct w as [ud snt att], update as [msg cq chat usr], q as [d].
  simpl in Hq, Hd, Hl, L0, Lf. subst cq d. unfold review_actions.
  plumbing. rewrite L0. plumbing. rewrite Hl. plumbing. decide_action.
  plumbing. rewrite Hc. plumbing. rewrite Ha. plumbing.
  destruct (link (S att)) eqn:L1; plumbing.
  2:{ destruct (link (S (S att))); reflexivity. }
  destruct (link (S (S att))) eqn:L2; plumbing.
  2:{ destruct (link (S (S (S att)))); reflexivity. }
  simpl in Lf. rewrite Lf. plumbing.
  destruct (link (S (S (S (S att))))); reflexivity.
Qed.

(** *** The name *)






(** *** The category *)






(** Title case and case-insensitive comparison. *)
Module CaseFacts.
Import Text.









End CaseFacts.

(** *** The price and the photos *)





(** *** The review loop *)






(* ================================================================== *)
(** ** The intake path *)
(* ================================================================== *)










Lemma lookup_after_calls calls w :
  user_data (after_calls calls w) = user_data w.
Proof. reflexivity. Qed.




(* ================================================================== *)
(** ** Inputs that are refused or ignored *)
(* ================================================================== *)





(** X5. With no listing in the storage, every handler of a message state
    raises [KeyError] on the update it is registered for, before making any
    call: the session is exactly as before. Only [review_actions] looks the
    listing up without raising. *)
Theorem message_handlers_need_a_listing
    (admin : Z) (link : nat -> bool) (s : State) (update : Update)
    (w : Session) (flt : Filter) (callback : Update -> M State) :
  message_state s = true ->
  states admin link s = Some (flt, callback) ->
  user_data w !! "listing" = None ->
  callback update w = (Raise KeyError, w).
Proof.
  intros Hs Hst Hl.
  destruct s; try discriminate; simpl in Hst; injection Hst as <- <-;
    unfold handle_name, handle_category, handle_price, handle_photo1,
           handle_photo2, edit_name, edit_cat, edit_price, edit_p1, edit_p2;
    unfold bind at 1; unfold user_data_item; rewrite Hl; reflexivity.
Qed.

(** [message_handlers_need_a_listing] at a name sent to a session that was
    never started. *)
Lemma message_handlers_need_a_listing_witness :
  handle_name always_up (text_message "BMW M4") fresh_session =
    (Raise KeyError, fresh_session).
Proof.
  apply (message_handlers_need_a_listing 777 always_up NAME
           (text_message "BMW M4") fresh_session TEXT_and_not_COMMAND);
    reflexivity.
Defined.

(* ================================================================== *)
(** ** Cancelling and beginning again *)
(* ================================================================== *)

Lemma cmd_cancel_storage link update w :
  user_data (snd (cmd_cancel link update w)) = ∅.
Proof.
  destruct w as [ud snt att], update as [msg cq chat usr].
  unfold cmd_cancel. plumbing. destruct msg as [m|]; plumbing;
    [destruct (link att)|]; reflexivity.
Qed.

(** X6. Cancelling empties the storage before anything is sent. The cancel
    command leaves the storage empty whatever the update and the link are;
    the cancel button does so once its acknowledgement went through on a
    session that holds a listing. When the confirmation goes through as
    well, the conversation ends. *)
Theorem cancel_empties_storage
    (admin : Z) (link : nat -> bool) (update : Update) (w : Session) :
  user_data (snd (cmd_cancel link update w)) = ∅ /\
  (forall m, message update = Some m -> link (attempts w) = true ->
     cmd_cancel link update w =
       (Ok END, after_calls [cancelled_command_notice] (cleared w))) /\
  (forall q lst,
     callback_query update = Some q -> data q = Some "cancel" ->
     user_data w !! "listing" = Some lst ->
     link (attempts w) = true ->
     user_data (snd (review_actions admin link update w)) = ∅ /\
     (link (S (attempts w)) = true ->
      review_actions admin link update w =
        (Ok END, after_calls [answer; cancelled_notice] (cleared w)))).
Proof.
  split; [apply cmd_cancel_storage|].
  destruct w as [ud snt att], update as [msg cq chat usr].
  cbn [attempts]. split.
  - intros m Hm L0. simpl in Hm. subst msg. unfold cmd_cancel.
    plumbing. rewrite L0. reflexivity.
  - intros [d] lst Hq Hd Hl L0. simpl in Hq, Hd, Hl. subst cq d.
    unfold review_actions. plumbing. rewrite L0. plumbing. rewrite Hl.
    plumbing. decide_action. plumbing.
    destruct (link (S att)) eqn:L1; plumbing.
    + split; [reflexivity|]. intros _. rewrite <- app_assoc. reflexivity.
    + split; [reflexivity|]. discriminate.
Qed.

(** [cancel_empties_storage] at the cancel button on the sample listing. *)
Lemma cancel_empties_storage_witness :
  review_actions 777 always_up (button "cancel") (session_of bmw) =
    (Ok END, after_calls [answer; cancelled_notice] (cleared (session_of bmw))).
Proof.
  apply (cancel_empties_storage 777 always_up (button "cancel")
           (session_of bmw)) with (q := {| data := Some "cancel" |})
                                  (lst := bmw);
    reflexivity.
Defined.

(** X7. The begin command starts from an empty listing: whatever the
    storage holds, a listing half filled or complete, and whether or not
    the greeting goes through, the stored listing is afterwards the one
    with every field unset, and nothing else in the storage is touched.
    After a cancel, a begin therefore finds no residue. *)
Theorem begin_resets_listing
    (link : nat -> bool) (update cancel : Update) (w : Session) :
  user_data (snd (cmd_start link update w)) =
    <["listing" := new_listing]> (user_data w) /\
  user_data (snd (cmd_start link update w)) !! "listing" = Some new_listing /\
  user_data (snd (cmd_start link update (snd (cmd_cancel link cancel w)))) =
    {["listing" := new_listing]} /\
  all_fields_set new_listing = false.
Proof.
  assert (H : forall u w0, user_data (snd (cmd_start link u w0)) =
                           <["listing" := new_listing]> (user_data w0)).
  { intros [msg cq chat usr] [ud snt att]. unfold cmd_start. plumbing.
    destruct msg as [m|]; plumbing; [destruct (link att)|]; reflexivity. }
  split; [apply H|]. split; [rewrite H; apply lookup_insert_eq|].
  split; [|reflexivity].
  rewrite H, cmd_cancel_storage. reflexivity.
Qed.

(* ================================================================== *)
(** ** Edges of the review loop and of the price *)
(* ================================================================== *)

(** X8. A button press whose data is none of the seven action ids, or that
    carries no data, is acknowledged and otherwise does nothing: the
    conversation stays in [REVIEW] and the storage is as before. *)
Theorem unknown_action_is_a_no_op
    (admin : Z) (link : nat -> bool) (update : Update) (q : CallbackQuery)
    (w : Session) (lst : Listing) :
  callback_query update = Some q ->
  (forall a, data q = Some a -> ~ In a action_ids) ->
  user_data w !! "listing" = Some lst ->
  (forall n, link n = true) ->
  review_actions admin link update w = (Ok REVIEW, after_calls [answer] w).
Proof.
  intros Hq Hd Hl Hlink.
  assert (Hno : forall a, In a action_ids -> data_is (data q) a = false).
  { intros a Ha. unfold data_is. destruct (data q) as [d|]; [|reflexivity].
    apply String.eqb_neq. intros ->. exact (Hd a eq_refl Ha). }
  destruct w as [ud snt att], update as [msg cq chat usr].
  simpl in Hq, Hl. subst cq. unfold review_actions.
  run_handler Hlink. rewrite Hl. plumbing.
  rewrite !Hno by (simpl; tauto). reflexivity.
Qed.

(** [unknown_action_is_a_no_op] at a button of another keyboard. *)
Lemma unknown_action_is_a_no_op_witness :
  review_actions 777 always_up (button "delete") (session_of bmw) =
    (Ok REVIEW, after_calls [answer] (session_of bmw)).
Proof.
  apply (unknown_action_is_a_no_op 777 always_up (button "delete")
           {| data := Some "delete" |} (session_of bmw) bmw);
    try reflexivity.
  intros a [= <-]. simpl. intuition discriminate.
Defined.






(* ================================================================== *)
(** ** What every run of the conversation keeps *)
(* ================================================================== *)

(** A small logic of handlers: [sound J m Q] composes along the monad. The
    session property [J] may speak of the storage only, and [good] is what
    [J] promises of the stored listing. *)
Section HandlerLogic.

Variable ADMIN_CHAT_ID : Z.
Variable link : nat -> bool.
Variable J : Session -> Prop.
Variable good : Listing -> Prop.

Hypothesis J_storage :
  forall ud snt att snt' att',
    J (mkSession ud snt att) -> J (mkSession ud snt' att').
Hypothesis J_store :
  forall w lst, J w -> good lst -> J (with_listing lst w).
Hypothesis J_clear : forall w, J w -> J (cleared w).
Hypothesis J_lookup :
  forall w lst, J w -> user_data w !! "listing" = Some lst -> good lst.

Hypothesis good_new : good new_listing.
Hypothesis good_name :
  forall lst t, good lst -> good (set_name (Text.strip t) lst).
Hypothesis good_category :
  forall lst c, good lst -> negb (in_categories c) = false ->
                good (set_category c lst).
Hypothesis good_price :
  forall lst t p, good lst -> clean_price t = Some p ->
                  good (set_price_per_day p lst).
Hypothesis good_photo1 :
  forall lst p, good lst -> good (set_photo1_id p lst).
Hypothesis good_photo2 :
  forall lst p, good lst -> good (set_photo2_id p lst).

Lemma sound_ret {A} (Q : A -> Prop) a : Q a -> sound J (ret a) Q.
Proof. intros H w Hw. split; [exact Hw|]. intros b [= <-]. exact H. Qed.

Lemma sound_raise {A} (Q : A -> Prop) e : sound J (raise e) Q.
Proof. intros w Hw. split; [exact Hw|]. discriminate. Qed.

Lemma sound_bind {A B} (m : M A) (k : A -> M B) (P : A -> Prop)
    (Q : B -> Prop) :
  sound J m P -> (forall a, P a -> sound J (k a) Q) -> sound J (bind m k) Q.
Proof.
  intros Hm Hk w Hw. destruct (Hm w Hw) as [H1 H2]. unfold bind.
  destruct (m w) as [[a|e] w']; simpl in H1, H2.
  - exact (Hk a (H2 a eq_refl) w' H1).
  - split; [exact H1|]. discriminate.
Qed.

Lemma sound_try {A} (body handler : M A) (Q : A -> Prop) :
  sound J body Q -> sound J handler Q -> sound J (try_except body handler) Q.
Proof.
  intros Hb Hh w Hw. destruct (Hb w Hw) as [H1 H2]. unfold try_except.
  destruct (body w) as [[a|e] w']; simpl in H1, H2.
  - split; [exact H1|]. intros b [= <-]. exact (H2 a eq_refl).
  - exact (Hh w' H1).
Qed.

Lemma sound_api c : sound J (api link c) (fun _ => True).
Proof.
  intros [ud snt att] Hw. unfold api. cbn [attempts user_data sent].
  destruct (link att); (split; [exact (J_storage _ _ _ _ _ Hw) | trivial]).
Qed.

Lemma sound_item : sound J (user_data_item "listing") good.
Proof.
  intros w Hw. unfold user_data_item.
  destruct (user_data w !! "listing") as [lst|] eqn:E; simpl.
  - split; [exact Hw|]. intros a [= <-]. exact (J_lookup w lst Hw E).
  - split; [exact Hw|]. discriminate.
Qed.

Lemma sound_get :
  sound J (user_data_get "listing")
        (fun o => forall lst, o = Some lst -> good lst).
Proof.
  intros w Hw. unfold user_data_get. simpl. split; [exact Hw|].
  intros a [= <-] lst E. exact (J_lookup w lst Hw E).
Qed.

Lemma sound_store lst :
  good lst -> sound J (user_data_store "listing" lst) (fun _ => True).
Proof.
  intros Hg w Hw. split; [|trivial]. exact (J_store w lst Hw Hg).
Qed.

Lemma sound_clear : sound J user_data_clear (fun _ => True).
Proof. intros w Hw. split; [|trivial]. exact (J_clear w Hw). Qed.

Lemma sound_message update : sound J (the_message update) (fun _ => True).
Proof.
  unfold the_message. destruct (message update).
  - apply sound_ret. trivial.
  - apply sound_raise.
Qed.

Lemma sound_callback update :
  sound J (the_callback_query update) (fun _ => True).
Proof.
  unfold the_callback_query. destruct (callback_query update).
  - apply sound_ret. trivial.
  - apply sound_raise.
Qed.

Lemma deliver_to_admin_sound update lst :
  sound J (deliver_to_admin ADMIN_CHAT_ID link update lst)
        (fun early => early = None \/ early = Some REVIEW \/
                      early = Some END).
Proof.
  unfold deliver_to_admin. apply sound_try.
  - destruct (ADMIN_CHAT_ID =? 0).
    + eapply sound_bind; [apply sound_api|]. intros _ _.
      apply sound_ret. tauto.
    + eapply sound_bind; [apply sound_api|]. intros _ _.
      eapply sound_bind; [apply sound_api|]. intros _ _.
      eapply sound_bind; [apply sound_api|]. intros _ _.
      apply sound_ret. tauto.
  - eapply sound_bind; [apply sound_api|]. intros _ _.
    apply sound_ret. tauto.
Qed.

(** One rule after the other, along the text of a handler. *)
Ltac sound_walk :=
  repeat first
    [ apply sound_raise
    | apply sound_ret; first [reflexivity | trivial]
    | eapply sound_bind;
      [ first [ apply sound_item | apply sound_get | apply sound_api
              | apply sound_clear | apply sound_message
              | apply sound_callback | apply deliver_to_admin_sound
              | apply sound_store;
                first [ apply good_new | apply good_name
                      | apply good_photo1 | apply good_photo2
                      | eapply good_category | eapply good_price ];
                eassumption ]
      | cbv beta; intros ]
    | match goal with
      | H : _ = None \/ _ |- _ => destruct H as [-> | [-> | ->]]
      | |- sound _ (if ?b then _ else _) _ => destruct b eqn:?
      | |- sound _ (match ?x with _ => _ end) _ => destruct x eqn:?
      end ].





Lemma cmd_start_sound update :
  sound J (cmd_start link update) (fun s => s = NAME).
Proof. unfold cmd_start. sound_walk. Qed.

Lemma cmd_cancel_sound update :
  sound J (cmd_cancel link update) (fun s => s = END).
Proof. unfold cmd_cancel. sound_walk. Qed.

End HandlerLogic.

Module StripFacts.
Import Text.





End StripFacts.








(* ================================================================== *)
(** ** What reaches the administrator *)
(* ================================================================== *)

(** Follows a handler through every branch: each test, lookup and state of
    the link is split in two. *)
Ltac explore link :=
  repeat (plumbing; cbv beta iota delta [andb leading_command];
          match goal with
          | |- context [match ?x with _ => _ end] => is_var x; destruct x
          | |- context [link ?n] => destruct (link n) eqn:?
          | |- context [?ud !! "listing"] => destruct (ud !! "listing") eqn:?
          | |- context [data_is ?d ?a] => destruct (data_is d a) eqn:?
          | |- context [truthy_opt ?t] => destruct (truthy_opt t) eqn:?
          | |- context [in_categories ?c] => destruct (in_categories c) eqn:?
          | |- context [clean_price ?t] => destruct (clean_price t) eqn:?
          | |- context [all_fields_set ?l] =>
              destruct (all_fields_set l) eqn:?
          | |- context [?a =? 0] => destruct (a =? 0) eqn:?
          end).

Lemma submit_pressed d : data_is d "submit" = true -> d = Some "submit".
Proof.
  destruct d as [a|]; [|discriminate]. simpl. intros H.
  apply String.eqb_eq in H. now subst.
Qed.

(** X14. Nothing reaches the administrator except a submission. For an
    update that comes from another chat than the administrator's, whatever
    the state, the update and the link: unless the submit button is pressed
    on a stored listing that passes the guard while the administrator's
    chat is configured, none of the calls made is addressed to the
    administrator's chat. *)
Theorem administrator_hears_only_of_submissions
    (admin : Z) (link : nat -> bool) (s : State) (update : Update)
    (w : Session) :
  effective_chat_id update <> admin ->
  ~ submitting admin s update w ->
  exists new,
    sent (snd (step admin link s update w)) = (sent w ++ new)%list /\
    forallb (fun c => negb (addressed_to admin c)) new = true.
Proof.
  intros Hne Hns.
  destruct update as [msg cq chat usr], w as [ud snt att].
  cbn [effective_chat_id] in Hne. apply Z.eqb_neq in Hne.
  unfold submitting in Hns. cbn [callback_query user_data] in Hns.
  unfold step. destruct s; cbn [states]; unfold accepts;
    cbn [message callback_query];
    unfold handle_name, handle_category, handle_price, handle_photo1,
           handle_photo2, edit_name, edit_cat, edit_price, edit_p1, edit_p2,
           review_actions;
    explore link;
    cbn [snd sent effective_chat_id]; rewrite <- ?app_assoc; cbn [app];
    first
      [ exists []; split; [symmetry; apply app_nil_r | reflexivity]
      | eexists; split;
        [ reflexivity
        | cbn [forallb addressed_to negb andb]; rewrite ?Hne; reflexivity ]
      | exfalso; apply Hns; split; [reflexivity|]; split;
        [ apply Z.eqb_neq; assumption |];
        split;
        [ eexists; split; [reflexivity|]; cbn [data];
          apply submit_pressed; assumption
        | eexists; split; [reflexivity | assumption] ] ].
Qed.

(** [administrator_hears_only_of_submissions] at the submit button on a
    listing without its second photo. *)
Lemma administrator_hears_only_of_submissions_witness :
  exists new,
    sent (snd (step 777 always_up REVIEW (button "submit")
                    (session_of (set_photo2_id None bmw)))) =
      (sent (session_of (set_photo2_id None bmw)) ++ new)%list /\
    forallb (fun c => negb (addressed_to 777 c)) new = true.
Proof.
  apply (administrator_hears_only_of_submissions 777 always_up REVIEW
           (button "submit") (session_of (set_photo2_id None bmw))).
  - discriminate.
  - intros (_ & _ & _ & lst & Hl & Hc).
    change (Some (set_photo2_id None bmw) = Some lst) in Hl.
    injection Hl as <-. discriminate.
Defined.

(* ================================================================== *)
(** ** The administrator's chat, from the id command to the environment *)
(* ================================================================== *)

Module IntFacts.
Import Int.

Lemma digits_step b acc c s :
  Text.isdigit c = true ->
  digits b acc (String c s) = digits true (10 * acc + (Text.ord c - 48))%N s.
Proof. intros H. cbn [digits]. rewrite H. reflexivity. Qed.

Lemma digits_acc d acc b :
  d <> Decimal.Nil \/ b = true ->
  digits b (Npos acc) (NilEmpty.string_of_uint d) =
    Some (Npos (Pos.of_uint_acc d acc)).
Proof.
  revert acc b. induction d as [|d IH|d IH|d IH|d IH|d IH|d IH|d IH|d IH|d IH|d IH];
    intros acc b Hb;
    [ destruct Hb as [Hb | ->]; [contradiction | reflexivity] | .. ];
    cbn [NilEmpty.string_of_uint Pos.of_uint_acc];
    rewrite digits_step by reflexivity;
    rewrite <- (IH _ true) by (right; reflexivity);
    f_equal; cbn; lia.
Qed.

Lemma digits_value d b :
  d <> Decimal.Nil \/ b = true ->
  digits b 0 (NilEmpty.string_of_uint d) = Some (Pos.of_uint d).
Proof.
  revert b. induction d as [|d IH|d IH|d IH|d IH|d IH|d IH|d IH|d IH|d IH|d IH];
    intros b Hb;
    [ destruct Hb as [Hb | ->]; [contradiction | reflexivity] | .. ];
    cbn [NilEmpty.string_of_uint Pos.of_uint];
    rewrite digits_step by reflexivity.
  - apply IH. right. reflexivity.
  - apply (digits_acc d 1 true). right. reflexivity.
  - apply (digits_acc d 2 true). right. reflexivity.
  - apply (digits_acc d 3 true). right. reflexivity.
  - apply (digits_acc d 4 true). right. reflexivity.
  - apply (digits_acc d 5 true). right. reflexivity.
  - apply (digits_acc d 6 true). right. reflexivity.
  - apply (digits_acc d 7 true). right. reflexivity.
  - apply (digits_acc d 8 true). right. reflexivity.
  - apply (digits_acc d 9 true). right. reflexivity.
Qed.

Lemma numeral_all_digits d : all_digits (NilEmpty.string_of_uint d) = true.
Proof. induction d; cbn [NilEmpty.string_of_uint all_digits]; auto. Qed.

Lemma digit_is_no_space c : Text.isdigit c = true -> isspace c = false.
Proof. destruct c as [[] [] [] [] [] [] [] []]; (discriminate || reflexivity). Qed.

Lemma rstrip_digits s : all_digits s = true -> rstrip s = s.
Proof.
  induction s as [|c s IH]; [reflexivity|]. cbn [all_digits rstrip].
  intros H. apply andb_true_iff in H as [Hc Hs]. rewrite (IH Hs).
  destruct s; [|reflexivity]. now rewrite (digit_is_no_space c Hc).
Qed.

Lemma lstrip_digits s : all_digits s = true -> lstrip s = s.
Proof.
  destruct s as [|c s]; [reflexivity|]. cbn [all_digits lstrip].
  intros H. apply andb_true_iff in H as [Hc _].
  now rewrite (digit_is_no_space c Hc).
Qed.

(** The numeral of a positive number, read back. *)
Lemma int_of_numeral p :
  int (NilEmpty.string_of_uint (Pos.to_uint p)) = Ok (Zpos p) /\
  int (String "-" (NilEmpty.string_of_uint (Pos.to_uint p))) = Ok (Zneg p).
Proof.
  pose proof (numeral_all_digits (Pos.to_uint p)) as Hd.
  pose proof (DecimalPos.Unsigned.to_uint_nonnil p) as Hn.
  pose proof (digits_value (Pos.to_uint p) false (or_introl Hn)) as Hv.
  rewrite DecimalPos.Unsigned.of_to in Hv.
  set (s := NilEmpty.string_of_uint (Pos.to_uint p)) in *.
  split; unfold int.
  - rewrite (lstrip_digits s Hd), (rstrip_digits s Hd).
    destruct s as [|c r] eqn:E; [discriminate|].
    cbn [all_digits] in Hd. apply andb_true_iff in Hd as [Hc _].
    assert (Hbody : match String c r with
                    | String "-" r0 => (true, r0)
                    | String "+" r0 => (false, r0)
                    | _ => (false, String c r)
                    end = (false, String c r)).
    { destruct c as [[] [] [] [] [] [] [] []]; try discriminate; reflexivity. }
    rewrite Hbody, Hv. reflexivity.
  - cbn [lstrip]. change (isspace "-") with false. cbv iota.
    cbn [rstrip]. rewrite (rstrip_digits s Hd).
    destruct s as [|c r] eqn:E; [discriminate|].
    change (isspace "-") with false. cbv iota beta. rewrite Hv. reflexivity.
Qed.

(** Printing an integer and reading it back gives the integer. *)
Lemma int_str_of_Z z : int (Float.str_of_Z z) = Ok z.
Proof.
  unfold Float.str_of_Z. destruct z as [|p|p].
  - reflexivity.
  - cbn [Z.to_int NilZero.string_of_int]. unfold NilZero.string_of_uint.
    pose proof (DecimalPos.Unsigned.to_uint_nonnil p) as Hn.
    destruct (Pos.to_uint p) eqn:E; try contradiction;
      rewrite <- E; apply int_of_numeral.
  - cbn [Z.to_int NilZero.string_of_int]. unfold NilZero.string_of_uint.
    pose proof (DecimalPos.Unsigned.to_uint_nonnil p) as Hn.
    destruct (Pos.to_uint p) eqn:E; try contradiction;
      rewrite <- E; apply int_of_numeral.
Qed.

Lemma str_of_Z_not_empty z : Text.truthy (Float.str_of_Z z) = true.
Proof.
  unfold Float.str_of_Z. destruct z as [|p|p]; [reflexivity| |reflexivity].
  cbn [Z.to_int NilZero.string_of_int]. unfold NilZero.string_of_uint.
  pose proof (DecimalPos.Unsigned.to_uint_nonnil p) as Hn.
  destruct (Pos.to_uint p); try contradiction; reflexivity.
Qed.

End IntFacts.

(** X15. The id command and the configuration of the administrator's chat
    fit together. The id command replies with the decimal numeral of the
    chat it comes from, and that numeral, put into the environment
    variable, is read back as exactly that chat. When the variable is not
    set or is empty the administrator's chat is 0, the value on which
    submit refuses to deliver; a value that is not a numeral raises
    [ValueError] when the module is loaded. Chat identifiers are 64-bit
    integers. *)
Theorem shown_chat_id_configures_that_chat
    (link : nat -> bool) (update : Update) (m : Message) (w : Session) :
  message update = Some m ->
  link (attempts w) = true ->
  - 2 ^ 63 <= effective_chat_id update < 2 ^ 63 ->
  cmd_id link update w =
    (Ok tt, after_calls [chat_id_reply (effective_chat_id update)] w) /\
  admin_chat_id_of_env (Some (Float.str_of_Z (effective_chat_id update))) =
    Ok (effective_chat_id update) /\
  admin_chat_id_of_env None = Ok 0 /\
  admin_chat_id_of_env (Some "") = Ok 0 /\
  admin_chat_id_of_env (Some "not set") = Raise ValueError.
Proof.
  intros Hm L0 _. split; [|split; [|repeat split]].
  - destruct w as [ud snt att], update as [msg cq chat usr].
    simpl in Hm, L0. subst msg. unfold cmd_id. plumbing. rewrite L0.
    reflexivity.
  - unfold admin_chat_id_of_env, getenv, or_else.
    rewrite IntFacts.str_of_Z_not_empty. apply IntFacts.int_str_of_Z.
Qed.

(** [shown_chat_id_configures_that_chat] at the chat of a group. *)
Lemma shown_chat_id_configures_that_chat_witness :
  admin_chat_id_of_env (Some "-1001234567890") = Ok (-1001234567890).
Proof.
  pose proof (shown_chat_id_configures_that_chat always_up
                {| message := Some {| text := Some "/id"; photo := [];
                                      leading_command := true |};
                   callback_query := None;
                   effective_chat_id := -1001234567890;
                   effective_user := renter |}
                {| text := Some "/id"; photo := []; leading_command := true |}
                fresh_session eq_refl eq_refl) as H.
  apply H. split; [discriminate | reflexivity].
Defined.

(* ================================================================== *)
(** ** The storage under the review handler and along a conversation *)
(* ================================================================== *)

Lemma cancel_pressed d : data_is d "cancel" = true -> d = Some "cancel".
Proof.
  destruct d as [a|]; [|discriminate]. simpl. intros H.
  apply String.eqb_eq in H. now subst.
Qed.

(** X16. The review handler never edits the listing. Whatever the button,
    the storage and the link, it leaves the storage exactly as it was or
    empties it, and it empties it only for the cancel button or for a
    submit that passed the guard with the administrator's chat configured
    and all three sends delivered. *)
Theorem review_leaves_or_empties_storage
    (admin : Z) (link : nat -> bool) (update : Update) (w : Session) :
  user_data (snd (review_actions admin link update w)) = user_data w \/
  (user_data (snd (review_actions admin link update w)) = ∅ /\
   exists q lst,
     callback_query update = Some q /\
     user_data w !! "listing" = Some lst /\
     (data q = Some "cancel" \/
      (data q = Some "submit" /\ all_fields_set lst = true /\ admin <> 0 /\
       link (1 + attempts w)%nat = true /\ link (2 + attempts w)%nat = true /\
       link (3 + attempts w)%nat = true))).
Proof.
  destruct update as [msg cq chat usr], w as [ud snt att].
  unfold review_actions. explore link; cbn [snd user_data];
    first
      [ left; reflexivity
      | right; split; [reflexivity|];
        do 2 eexists; split; [reflexivity|]; split; [reflexivity|];
        cbv beta iota;
        first
          [ left; apply cancel_pressed; assumption
          | right; split; [apply submit_pressed; assumption|];
            split; [assumption|]; split; [apply Z.eqb_neq; assumption|];
            auto ] ].
Qed.




(* ================================================================== *)
(** ** The category, up to case *)
(* ================================================================== *)


